(** * retis: OVS datapath hooks and the kprobe function-IP helper

    A shallow embedding of

    - [src/core/probe/kernel/bpf/include/helpers.h]   ([kprobe_get_func_ip]),
    - [src/module/ovs/bpf/kernel_enqueue.bpf.c]       (kretprobe hook on
      [queue_userspace_packet]),
    - [src/module/ovs/bpf/kernel_exec_tp.bpf.c]       (hook on the
      [ovs_do_execute_action] tracepoint, with [handle_tracking]),

    followed by the properties the design document states about them.

    Integers of a fixed width are [Z] with the wrap-around written out,
    pointers are addresses in [Z] with [0] for [NULL], BPF maps are [gmap]s
    and the raw event under assembly is the list of its sections. *)

From Stdlib Require Import ZArith Lia Bool.
From stdpp Require Import base option list gmap.

Local Open Scope Z_scope.

(** ** Fixed-width integers *)

Definition u8 (x : Z) : Z := x mod 2 ^ 8.
Definition u32 (x : Z) : Z := x mod 2 ^ 32.
Definition u64 (x : Z) : Z := x mod 2 ^ 64.

(** The C cast [(int) x]: the low 32 bits, read in two's complement. *)
Definition s32 (x : Z) : Z := (x + 2 ^ 31) mod 2 ^ 32 - 2 ^ 31.

(** ** helpers.h *)

(** The part of [struct pt_regs] the helper reads: [PT_REGS_IP(ctx)]. *)
Record pt_regs := { PT_REGS_IP : Z }.

(** What the running kernel offers to a kprobe program.
    [has_BPF_FUNC_get_func_ip] is
    [bpf_core_enum_value_exists(enum bpf_func_id___x,
    BPF_FUNC_get_func_ip___5_15_0)], resolved when the program is loaded;
    [bpf_get_func_ip] is the kernel helper of that name. *)
Record kprobe_kernel := {
  has_BPF_FUNC_get_func_ip : bool;
  bpf_get_func_ip : pt_regs -> Z
}.

Definition kprobe_get_func_ip (k : kprobe_kernel) (ctx : pt_regs) : Z :=
  if has_BPF_FUNC_get_func_ip k
  then bpf_get_func_ip k ctx
  else u64 (PT_REGS_IP ctx - 1).

(** ** Probe context *)

(** [struct retis_regs]: the probe's arguments, [reg[i]], and the return
    value captured by a kretprobe, [ret]; all are [u64]. *)
Record retis_regs := { reg : nat -> Z; ret : Z }.

(** The fields of [struct retis_context] the two hooks read. *)
Record retis_context := { regs : retis_regs; filters_ret : Z }.

(** ** Event sections written by the OVS collector *)

(** [struct upcall_enqueue_event], [struct exec_event],
    [struct exec_track_event] and [struct exec_output]; all are packed. *)
Record upcall_enqueue_event := { enqueue_ret : Z; enqueue_cmd : Z; enqueue_port : Z }.
Record exec_event := { action : Z; recirc_id : Z }.
Record exec_track_event := { queue_id : Z }.
Record exec_output := { port : Z }.

Definition sizeof_upcall_enqueue_event : Z := 4 + 1 + 4.
Definition sizeof_exec_event : Z := 1 + 4.
Definition sizeof_exec_track_event : Z := 4.
Definition sizeof_exec_output : Z := 4.

(** Owner and data-type identifiers of a section.  Their numbering lives in
    headers outside this development; only their being distinct matters. *)
Inductive event_owner := COLLECTOR_OVS.

Inductive ovs_data_type :=
  | OVS_DP_UPCALL_QUEUE
  | OVS_DP_ACTION
  | OVS_DP_ACTION_TRACK
  | OVS_DP_ACTION_OUTPUT.

Inductive section_data :=
  | UpcallEnqueue (e : upcall_enqueue_event)
  | Exec (e : exec_event)
  | ExecTrack (t : exec_track_event)
  | ExecOutput (o : exec_output).

Record event_section := {
  owner : event_owner;
  data_type : ovs_data_type;
  section_size : Z;
  data : section_data
}.

(** [struct retis_raw_event], seen as the sections reserved so far. *)
Abbreviation retis_raw_event := (list event_section).

(** A freshly reserved region is zero-initialised. *)
Definition zeroed (t : ovs_data_type) : section_data :=
  match t with
  | OVS_DP_UPCALL_QUEUE =>
      UpcallEnqueue {| enqueue_ret := 0; enqueue_cmd := 0; enqueue_port := 0 |}
  | OVS_DP_ACTION => Exec {| action := 0; recirc_id := 0 |}
  | OVS_DP_ACTION_TRACK => ExecTrack {| queue_id := 0 |}
  | OVS_DP_ACTION_OUTPUT => ExecOutput {| port := 0 |}
  end.

(** Field assignments through a section pointer, [p->field = v]. *)
Definition set_enqueue_port (v : Z) (d : section_data) : section_data :=
  match d with
  | UpcallEnqueue e =>
      UpcallEnqueue {| enqueue_ret := enqueue_ret e; enqueue_cmd := enqueue_cmd e;
                       enqueue_port := v |}
  | _ => d
  end.

Definition set_enqueue_cmd (v : Z) (d : section_data) : section_data :=
  match d with
  | UpcallEnqueue e =>
      UpcallEnqueue {| enqueue_ret := enqueue_ret e; enqueue_cmd := v;
                       enqueue_port := enqueue_port e |}
  | _ => d
  end.

Definition set_enqueue_ret (v : Z) (d : section_data) : section_data :=
  match d with
  | UpcallEnqueue e =>
      UpcallEnqueue {| enqueue_ret := v; enqueue_cmd := enqueue_cmd e;
                       enqueue_port := enqueue_port e |}
  | _ => d
  end.

Definition set_action (v : Z) (d : section_data) : section_data :=
  match d with
  | Exec e => Exec {| action := v; recirc_id := recirc_id e |}
  | _ => d
  end.

Definition set_recirc_id (v : Z) (d : section_data) : section_data :=
  match d with
  | Exec e => Exec {| action := action e; recirc_id := v |}
  | _ => d
  end.

Definition set_queue_id (v : Z) (d : section_data) : section_data :=
  match d with
  | ExecTrack _ => ExecTrack {| queue_id := v |}
  | _ => d
  end.

Definition set_port (v : Z) (d : section_data) : section_data :=
  match d with
  | ExecOutput _ => ExecOutput {| port := v |}
  | _ => d
  end.

Definition with_data (f : section_data -> section_data) (s : event_section)
  : event_section :=
  {| owner := owner s; data_type := data_type s; section_size := section_size s;
     data := f (data s) |}.

(** A write through the pointer to section number [p] of the event. *)
Definition store (p : nat) (f : section_data -> section_data)
    (event : retis_raw_event) : retis_raw_event :=
  alter (with_data f) p event.

(** Reading [exec->action] back through the pointer to section [p]. *)
Definition load_action (p : nat) (event : retis_raw_event) : Z :=
  match event !! p with
  | Some s => match data s with Exec e => action e | _ => 0 end
  | None => 0
  end.

(** ** The kernel as the OVS hooks see it *)

(** [struct packet_buffer]: the scratch area a packet is copied into. *)
Record packet_buffer := { buffer_data : list Z }.

(** Everything the hooks obtain from outside themselves during one firing:
    BPF helpers and maps, reads of kernel memory, and the event assembler's
    decision on a reservation.

    - [bpf_get_current_pid_tgid]: the helper's result for the running task;
    - [inflight_exec_cmd], [packet_buffers]: the BPF maps of these names;
    - [retis_get_sk_buff]: the packet reference of the probe, [0] if none;
    - [skb_bytes]: the packet bytes readable behind a packet reference;
    - [read_recirc_id]: [BPF_CORE_READ(key, recirc_id)];
    - [read_portid], [read_cmd]: [BPF_CORE_READ(upcall, portid)] and
      [BPF_CORE_READ(upcall, cmd)];
    - [nla_type], [nla_data]: the netlink attribute accessors;
    - [bpf_probe_read_kernel_u32]: a 4-byte [bpf_probe_read_kernel], [None]
      when the read faults (the destination is then left zeroed);
    - [section_granted]: whether the assembler can supply a section of the
      given owner, data type and size to the event in its current state. *)
Record ovs_kernel := {
  bpf_get_current_pid_tgid : Z;
  inflight_exec_cmd : gmap Z Z;
  packet_buffers : gmap Z packet_buffer;
  retis_get_sk_buff : retis_context -> Z;
  skb_bytes : Z -> list Z;
  read_recirc_id : Z -> Z;
  read_portid : Z -> Z;
  read_cmd : Z -> Z;
  nla_type : Z -> Z;
  nla_data : Z -> Z;
  bpf_probe_read_kernel_u32 : Z -> option Z;
  section_granted : retis_raw_event -> event_owner -> ovs_data_type -> Z -> bool
}.

(** Modelled from the spec: [get_event_section] is declared in a header
    outside this development.  A reservation names the event, the
    owner, the data type and the exact size; on success a zero-initialised
    region of that size is appended to the event and a pointer to it is
    returned, on failure (buffer exhausted, category disabled or filtered)
    nothing is returned and the event is unchanged. *)
Definition get_event_section (k : ovs_kernel) (event : retis_raw_event)
    (o : event_owner) (t : ovs_data_type) (sz : Z)
  : option (nat * retis_raw_event) :=
  if section_granted k event o t sz
  then Some (length event,
             event ++ [{| owner := o; data_type := t; section_size := sz;
                          data := zeroed t |}])
  else None.

(** ** The outcome of one firing of a hook *)

(** The return statement through which a hook body left: [aborted] before
    anything of its own was reserved, [discarded] at the statement commented
    as dropping the event, [kept] otherwise.  This is a label on the path
    taken; the C function returns 0 through every one of them. *)
Inductive disposition := aborted | discarded | kept.

(** The value the hook function returns, where it left, and the event as the
    hook leaves it. *)
Record firing := {
  retval : Z;
  outcome : disposition;
  staged : retis_raw_event
}.

(** The sections a firing added to the event it was handed. *)
Definition new_sections (before : retis_raw_event) (f : firing) : list event_section :=
  drop (length before) (staged f).

(** Modelled from the spec: what happens to the event after the hook returns
    (the expansion of [DEFINE_HOOK]/[DEFINE_HOOK_RAW] and their caller) lies
    outside this development.  The sections of a firing are staged and
    reach consumers only if the firing was not discarded; a discarded firing
    delivers nothing, although its [exec_event] was written. *)
Definition records_reaching_consumers (before : retis_raw_event) (f : firing)
  : list event_section :=
  match outcome f with
  | discarded => []
  | _ => new_sections before f
  end.

(** ** kernel_enqueue.bpf.c *)

Module kernel_enqueue.

(** Hook for [kretprobe:queue_userspace_packet]. *)
Definition hook (k : ovs_kernel) (ctx : retis_context) (event : retis_raw_event)
  : firing :=
  let upcall := reg (regs ctx) 3 in
  if upcall =? 0 then
    {| retval := 0; outcome := aborted; staged := event |}
  else
    match get_event_section k event COLLECTOR_OVS OVS_DP_UPCALL_QUEUE
                            sizeof_upcall_enqueue_event with
    | None => {| retval := 0; outcome := aborted; staged := event |}
    | Some (enqueue, event) =>
        let event := store enqueue (set_enqueue_port (u32 (read_portid k upcall))) event in
        let event := store enqueue (set_enqueue_cmd (u8 (read_cmd k upcall))) event in
        let event := store enqueue (set_enqueue_ret (s32 (ret (regs ctx)))) event in
        {| retval := 0; outcome := kept; staged := event |}
    end.

End kernel_enqueue.

(** ** kernel_exec_tp.bpf.c *)

Module kernel_exec_tp.

Section program.

(** Constants of headers outside this development: the filter flag tested
    in [ctx->filters_ret] and the netlink type of the output action. *)
Variable RETIS_F_PACKET_PASS : Z.
Variable OVS_ACTION_ATTR_OUTPUT : Z.

(** The packet hash: how many leading bytes of the packet are hashed, and
    the function that folds them into a number. *)
Variable PACKET_HASH_SIZE : nat.
Variable packet_digest : list Z -> Z.

(** Modelled from the spec: [hash_skb] is defined in a header outside this
    development.  The leading bytes of the packet, at most a fixed number
    of them, are copied into the scratch buffer and hashed into a 32-bit
    value; the result depends on those bytes only. *)
Definition hash_skb (k : ovs_kernel) (buff : packet_buffer) (skb : Z) : Z :=
  let copied := take PACKET_HASH_SIZE (skb_bytes k skb) in
  u32 (packet_digest copied).

Definition handle_tracking (k : ovs_kernel) (ctx : retis_context)
    (event : retis_raw_event) : Z * retis_raw_event :=
  let zero := 0 in
  let tid := bpf_get_current_pid_tgid k in
  match inflight_exec_cmd k !! tid with
  | None =>
      (* This call does not come from a userspace command. *)
      (0, event)
  | Some _ =>
      let skb := retis_get_sk_buff k ctx in
      if skb =? 0 then (-1, event)
      else
        match packet_buffers k !! zero with
        | None => (-1, event)
        | Some buff =>
            match get_event_section k event COLLECTOR_OVS OVS_DP_ACTION_TRACK
                                    sizeof_exec_track_event with
            | None => (-1, event)
            | Some (track, event) =>
                let event := store track (set_queue_id (hash_skb k buff skb)) event in
                (1, event)
            end
        end
  end.

(** Hook for the [ovs_do_execute_action] tracepoint. *)
Definition hook (k : ovs_kernel) (ctx : retis_context) (event : retis_raw_event)
  : firing :=
  let key := reg (regs ctx) 2 in
  if key =? 0 then
    {| retval := 0; outcome := aborted; staged := event |}
  else
    let attr := reg (regs ctx) 3 in
    if attr =? 0 then
      {| retval := 0; outcome := aborted; staged := event |}
    else
      match get_event_section k event COLLECTOR_OVS OVS_DP_ACTION sizeof_exec_event with
      | None => {| retval := 0; outcome := aborted; staged := event |}
      | Some (exec, event) =>
          let event := store exec (set_action (u8 (nla_type k attr))) event in
          let event := store exec (set_recirc_id (u32 (read_recirc_id k key))) event in
          (* Discard events for unmatching packets not coming from userspace. *)
          let '(tracking, event) := handle_tracking k ctx event in
          if (tracking =? 0) && (Z.land (filters_ret ctx) RETIS_F_PACKET_PASS =? 0) then
            {| retval := 0; outcome := discarded; staged := event |}
          else if load_action exec event =? OVS_ACTION_ATTR_OUTPUT then
            (* Add action-specific data for some actions. *)
            match get_event_section k event COLLECTOR_OVS OVS_DP_ACTION_OUTPUT
                                    sizeof_exec_output with
            | None => {| retval := 0; outcome := kept; staged := event |}
            | Some (output, event) =>
                let event :=
                  store output
                        (set_port (u32 (default 0 (bpf_probe_read_kernel_u32 k
                                                    (nla_data k attr)))))
                        event in
                {| retval := 0; outcome := kept; staged := event |}
            end
          else
            {| retval := 0; outcome := kept; staged := event |}
      end.

End program.

End kernel_exec_tp.

(** ** The sections the hooks write, spelled out *)

(** The [exec_event] section of a firing, once both fields are assigned. *)
Definition exec_section (k : ovs_kernel) (ctx : retis_context) : event_section :=
  {| owner := COLLECTOR_OVS; data_type := OVS_DP_ACTION;
     section_size := sizeof_exec_event;
     data := Exec {| action := u8 (nla_type k (reg (regs ctx) 3));
                     recirc_id := u32 (read_recirc_id k (reg (regs ctx) 2)) |} |}.

Definition track_section (q : Z) : event_section :=
  {| owner := COLLECTOR_OVS; data_type := OVS_DP_ACTION_TRACK;
     section_size := sizeof_exec_track_event; data := ExecTrack {| queue_id := q |} |}.

Definition output_section (p : Z) : event_section :=
  {| owner := COLLECTOR_OVS; data_type := OVS_DP_ACTION_OUTPUT;
     section_size := sizeof_exec_output; data := ExecOutput {| port := p |} |}.

Definition enqueue_section (r c p : Z) : event_section :=
  {| owner := COLLECTOR_OVS; data_type := OVS_DP_UPCALL_QUEUE;
     section_size := sizeof_upcall_enqueue_event;
     data := UpcallEnqueue {| enqueue_ret := r; enqueue_cmd := c; enqueue_port := p |} |}.

(** The coarse packet-matching predicate: the filter flag is set. *)
Definition packet_pass (PASS : Z) (ctx : retis_context) : bool :=
  negb (Z.land (filters_ret ctx) PASS =? 0).

(** Whether the running task is recorded as executing a userspace command. *)
Definition in_flight (k : ovs_kernel) : bool :=
  match inflight_exec_cmd k !! bpf_get_current_pid_tgid k with
  | Some _ => true
  | None => false
  end.

(** ** Concrete firings *)

Definition sample_digest (bytes : list Z) : Z :=
  fold_left (fun h b => h * 31 + b) bytes 7.

Definition grant_all : retis_raw_event -> event_owner -> ovs_data_type -> Z -> bool :=
  fun _ _ _ _ => true.

Definition grant_none : retis_raw_event -> event_owner -> ovs_data_type -> Z -> bool :=
  fun _ _ _ _ => false.

(** A kernel in which task 4242 runs; [inflight] says whether it is in the
    in-flight table, [skb] is the packet reference of the probe. *)
Definition sample_kernel (inflight : bool) (skb : Z)
    (granted : retis_raw_event -> event_owner -> ovs_data_type -> Z -> bool)
  : ovs_kernel :=
  {| bpf_get_current_pid_tgid := 4242;
     inflight_exec_cmd := if inflight then {[ 4242 := 1 ]} else ∅;
     packet_buffers := {[ 0 := {| buffer_data := [] |} ]};
     retis_get_sk_buff := fun _ => skb;
     skb_bytes := fun _ => [222; 173; 190; 239; 1; 2; 3];
     read_recirc_id := fun _ => 9;
     read_portid := fun _ => 7;
     read_cmd := fun _ => 3;
     nla_type := fun _ => 1;
     nla_data := fun a => a + 4;
     bpf_probe_read_kernel_u32 := fun _ => Some 5;
     section_granted := granted |}.

Definition sample_ctx (key attr retv filters : Z) : retis_context :=
  {| regs := {| reg := fun i => match i with
                                | 2%nat => key
                                | 3%nat => attr
                                | _ => 0
                                end;
                ret := retv |};
     filters_ret := filters |}.

(** The assembler has room for the [exec_event] and for nothing else. *)
Definition grant_exec_only : retis_raw_event -> event_owner -> ovs_data_type -> Z -> bool :=
  fun _ _ t _ => match t with OVS_DP_ACTION => true | _ => false end.

(** The sample kernel with another packet behind the packet reference. *)
Definition with_packet (bytes : list Z) (k : ovs_kernel) : ovs_kernel :=
  {| bpf_get_current_pid_tgid := bpf_get_current_pid_tgid k;
     inflight_exec_cmd := inflight_exec_cmd k;
     packet_buffers := packet_buffers k;
     retis_get_sk_buff := retis_get_sk_buff k;
     skb_bytes := fun _ => bytes;
     read_recirc_id := read_recirc_id k;
     read_portid := read_portid k;
     read_cmd := read_cmd k;
     nla_type := nla_type k;
     nla_data := nla_data k;
     bpf_probe_read_kernel_u32 := bpf_probe_read_kernel_u32 k;
     section_granted := section_granted k |}.

(** ** Well-formed sections *)

(** A section as a decoder expects it: the owner is the OVS collector, the
    data type names the structure in the payload, the size is that of the
    packed structure, and every field lies in the range of its C type. *)
Definition well_formed_section (s : event_section) : Prop :=
  owner s = COLLECTOR_OVS /\
  match data s with
  | UpcallEnqueue e =>
      data_type s = OVS_DP_UPCALL_QUEUE /\ section_size s = 9 /\
      - 2 ^ 31 <= enqueue_ret e < 2 ^ 31 /\
      0 <= enqueue_cmd e < 2 ^ 8 /\
      0 <= enqueue_port e < 2 ^ 32
  | Exec e =>
      data_type s = OVS_DP_ACTION /\ section_size s = 5 /\
      0 <= action e < 2 ^ 8 /\
      0 <= recirc_id e < 2 ^ 32
  | ExecTrack t =>
      data_type s = OVS_DP_ACTION_TRACK /\ section_size s = 4 /\
      0 <= queue_id t < 2 ^ 32
  | ExecOutput o =>
      data_type s = OVS_DP_ACTION_OUTPUT /\ section_size s = 4 /\
      0 <= port o < 2 ^ 32
  end.

(** The port an output section carries: the four bytes read at the
    attribute's payload, or 0 when the read faults. *)
Definition output_port (k : ovs_kernel) (ctx : retis_context) : Z :=
  u32 (default 0 (bpf_probe_read_kernel_u32 k (nla_data k (reg (regs ctx) 3)))).

(** ** More concrete kernels *)

(** A kernel that answers [nla_type] with [f] and is otherwise [k]. *)
Definition with_nla_type (f : Z -> Z) (k : ovs_kernel) : ovs_kernel :=
  {| bpf_get_current_pid_tgid := bpf_get_current_pid_tgid k;
     inflight_exec_cmd := inflight_exec_cmd k;
     packet_buffers := packet_buffers k;
     retis_get_sk_buff := retis_get_sk_buff k;
     skb_bytes := skb_bytes k;
     read_recirc_id := read_recirc_id k;
     read_portid := read_portid k;
     read_cmd := read_cmd k;
     nla_type := f;
     nla_data := nla_data k;
     bpf_probe_read_kernel_u32 := bpf_probe_read_kernel_u32 k;
     section_granted := section_granted k |}.


(** The assembler grants every section but those of data type [t]. *)
Definition grant_all_but (t : ovs_data_type)
  : retis_raw_event -> event_owner -> ovs_data_type -> Z -> bool :=
  fun _ _ t' _ =>
    match t, t' with
    | OVS_DP_UPCALL_QUEUE, OVS_DP_UPCALL_QUEUE
    | OVS_DP_ACTION, OVS_DP_ACTION
    | OVS_DP_ACTION_TRACK, OVS_DP_ACTION_TRACK
    | OVS_DP_ACTION_OUTPUT, OVS_DP_ACTION_OUTPUT => false
    | _, _ => true
    end.

(** * Properties *)

(** ** Writing through section pointers *)

Lemma store_snoc (event : retis_raw_event) s f :
  store (length event) f (event ++ [s]) = event ++ [with_data f s].
Proof.
  unfold store. induction event as [|x event IH]; simpl; [reflexivity|].
  f_equal. exact IH.
Qed.

Lemma load_action_middle (event rest : retis_raw_event) s :
  load_action (length event) (event ++ s :: rest)
  = match data s with Exec e => action e | _ => 0 end.
Proof. unfold load_action. by rewrite list_lookup_middle. Qed.

Lemma new_sections_app before added r o :
  new_sections before {| retval := r; outcome := o; staged := before ++ added |} = added.
Proof. unfold new_sections; simpl. apply drop_app_length. Qed.

Lemma new_sections_nil before r o :
  new_sections before {| retval := r; outcome := o; staged := before |} = [].
Proof. unfold new_sections; simpl. apply drop_all. Qed.

Lemma in_flight_false k :
  in_flight k = false -> inflight_exec_cmd k !! bpf_get_current_pid_tgid k = None.
Proof. unfold in_flight. by case_match. Qed.

Lemma in_flight_true k :
  in_flight k = true ->
  exists v, inflight_exec_cmd k !! bpf_get_current_pid_tgid k = Some v.
Proof. unfold in_flight. case_match; [eauto|done]. Qed.

(** ** Fixed-width integers *)

Lemma u8_small x : 0 <= x < 2 ^ 8 -> u8 x = x.
Proof. intros H. unfold u8. by apply Z.mod_small. Qed.

Lemma u32_small x : 0 <= x < 2 ^ 32 -> u32 x = x.
Proof. intros H. unfold u32. by apply Z.mod_small. Qed.

Lemma u32_range x : 0 <= u32 x < 2 ^ 32.
Proof. unfold u32. apply Z.mod_pos_bound. lia. Qed.

Lemma s32_range x : - 2 ^ 31 <= s32 x < 2 ^ 31.
Proof.
  unfold s32.
  pose proof (Z.mod_pos_bound (x + 2 ^ 31) (2 ^ 32) ltac:(lia)). lia.
Qed.

Lemma s32_small x : - 2 ^ 31 <= x < 2 ^ 31 -> s32 x = x.
Proof. intros H. unfold s32. rewrite Z.mod_small; lia. Qed.

Lemma s32_congr x : s32 x mod 2 ^ 32 = x mod 2 ^ 32.
Proof.
  unfold s32.
  rewrite Zminus_mod, Zmod_mod, <- Zminus_mod.
  f_equal. lia.
Qed.

(** ** helpers.h: the function IP of a kprobe *)

(** C4.  [kprobe_get_func_ip] yields an address for every kernel and every
    register state; there is no failing branch.  When the kernel has
    [bpf_get_func_ip] the address is that helper's result, unchanged.
    Otherwise it is the trapped instruction pointer minus one, computed on
    64 bits: it lies in the [u64] range, adding one gives the instruction
    pointer back modulo [2^64], and it is exactly [ip - 1] for every
    non-zero instruction pointer. *)
Theorem kprobe_get_func_ip_total (k : kprobe_kernel) (ctx : pt_regs) :
  (exists addr, kprobe_get_func_ip k ctx = addr) /\
  (has_BPF_FUNC_get_func_ip k = true ->
     kprobe_get_func_ip k ctx = bpf_get_func_ip k ctx) /\
  (has_BPF_FUNC_get_func_ip k = false ->
     kprobe_get_func_ip k ctx = (PT_REGS_IP ctx - 1) mod 2 ^ 64 /\
     0 <= kprobe_get_func_ip k ctx < 2 ^ 64 /\
     (kprobe_get_func_ip k ctx + 1) mod 2 ^ 64 = PT_REGS_IP ctx mod 2 ^ 64 /\
     (0 < PT_REGS_IP ctx < 2 ^ 64 -> kprobe_get_func_ip k ctx = PT_REGS_IP ctx - 1)).
Proof.
  unfold kprobe_get_func_ip, u64.
  split; [eauto|]. split; intros ->; [reflexivity|].
  split; [reflexivity|]. split; [apply Z.mod_pos_bound; lia|]. split.
  - rewrite Zplus_mod_idemp_l. f_equal. lia.
  - intros Hip. apply Z.mod_small. lia.
Qed.

(** ** kernel_enqueue.bpf.c *)

Lemma enqueue_hook_eq k ctx event :
  kernel_enqueue.hook k ctx event =
  if reg (regs ctx) 3 =? 0 then
    {| retval := 0; outcome := aborted; staged := event |}
  else if section_granted k event COLLECTOR_OVS OVS_DP_UPCALL_QUEUE
                          sizeof_upcall_enqueue_event then
    {| retval := 0; outcome := kept;
       staged := event ++ [enqueue_section (s32 (ret (regs ctx)))
                                           (u8 (read_cmd k (reg (regs ctx) 3)))
                                           (u32 (read_portid k (reg (regs ctx) 3)))] |}
  else {| retval := 0; outcome := aborted; staged := event |}.
Proof.
  unfold kernel_enqueue.hook, get_event_section.
  destruct (reg (regs ctx) 3 =? 0); [reflexivity|].
  destruct (section_granted k event _ _ _); [|reflexivity].
  by rewrite !store_snoc.
Qed.

(** The hook function returns 0 on every path. *)
Lemma enqueue_hook_retval k ctx event : retval (kernel_enqueue.hook k ctx event) = 0.
Proof. rewrite enqueue_hook_eq. by repeat case_match. Qed.

(** C3, as amended.  When the upcall pointer is non-null and the assembler
    grants the [upcall_enqueue_event] section, exactly one record of that
    kind is emitted.  Its command and port are the descriptor's [cmd] (8
    bits) and [portid] (32 bits) unchanged, and its return code is the
    captured return register cast to [int], which is the register's value
    whenever that value fits in 31 bits. *)
Theorem enqueue_emits_one_record k ctx event :
  let upcall := reg (regs ctx) 3 in
  upcall <> 0 ->
  section_granted k event COLLECTOR_OVS OVS_DP_UPCALL_QUEUE
                  sizeof_upcall_enqueue_event = true ->
  0 <= read_cmd k upcall < 2 ^ 8 ->
  0 <= read_portid k upcall < 2 ^ 32 ->
  records_reaching_consumers event (kernel_enqueue.hook k ctx event)
  = [enqueue_section (s32 (ret (regs ctx))) (read_cmd k upcall) (read_portid k upcall)]
  /\ (0 <= ret (regs ctx) < 2 ^ 31 -> s32 (ret (regs ctx)) = ret (regs ctx)).
Proof.
  intros upcall Hptr Hgrant Hcmd Hport. subst upcall. split.
  - rewrite enqueue_hook_eq, Hgrant.
    destruct (Z.eqb_spec (reg (regs ctx) 3) 0) as [|_]; [contradiction|].
    unfold records_reaching_consumers; simpl outcome; cbv iota.
    rewrite new_sections_app.
    by rewrite u8_small, u32_small.
  - intros Hret. apply s32_small. lia.
Qed.

(** C10.  The return code of every emitted [upcall_enqueue_event] is the
    captured 64-bit return register cut down to its low 32 bits and read as
    a signed number: it equals [s32] of the register, it lies in the range
    of [int], and it agrees with the register modulo [2^32]. *)
Theorem enqueue_ret_is_low_32_bits k ctx event s e :
  s ∈ records_reaching_consumers event (kernel_enqueue.hook k ctx event) ->
  data s = UpcallEnqueue e ->
  enqueue_ret e = s32 (ret (regs ctx)) /\
  - 2 ^ 31 <= enqueue_ret e < 2 ^ 31 /\
  enqueue_ret e mod 2 ^ 32 = ret (regs ctx) mod 2 ^ 32.
Proof.
  rewrite enqueue_hook_eq. unfold records_reaching_consumers.
  repeat case_match; simpl in *; try discriminate;
    rewrite ?new_sections_nil, ?new_sections_app;
    intros Hin Hdata; try (by apply elem_of_nil in Hin).
  apply list_elem_of_singleton in Hin. subst s. simpl in Hdata.
  injection Hdata as <-. simpl.
  split; [reflexivity|]. split; [apply s32_range | apply s32_congr].
Qed.

(** ** kernel_exec_tp.bpf.c *)

Section exec_properties.

Variables (PASS OUTPUT : Z) (SPAN : nat) (digest : list Z -> Z).

Local Abbreviation hook := (kernel_exec_tp.hook PASS OUTPUT SPAN digest).
Local Abbreviation handle_tracking := (kernel_exec_tp.handle_tracking SPAN digest).
Local Abbreviation hash_skb := (kernel_exec_tp.hash_skb SPAN digest).

(** [handle_tracking] with its write to the reserved section carried out. *)
Lemma handle_tracking_eq k ctx event :
  handle_tracking k ctx event =
  match inflight_exec_cmd k !! bpf_get_current_pid_tgid k with
  | None => (0, event)
  | Some _ =>
      if retis_get_sk_buff k ctx =? 0 then (-1, event)
      else
        match packet_buffers k !! 0 with
        | None => (-1, event)
        | Some buff =>
            if section_granted k event COLLECTOR_OVS OVS_DP_ACTION_TRACK
                               sizeof_exec_track_event
            then (1, event ++ [track_section (hash_skb k buff (retis_get_sk_buff k ctx))])
            else (-1, event)
        end
  end.
Proof.
  unfold kernel_exec_tp.handle_tracking, get_event_section.
  repeat case_match; try reflexivity; simplify_eq.
  by rewrite store_snoc.
Qed.

(** The hook with its writes carried out: what it returns is the event it
    was handed followed by the sections of this firing. *)
Lemma hook_eq k ctx event :
  hook k ctx event =
  if reg (regs ctx) 2 =? 0 then {| retval := 0; outcome := aborted; staged := event |}
  else if reg (regs ctx) 3 =? 0 then {| retval := 0; outcome := aborted; staged := event |}
  else if section_granted k event COLLECTOR_OVS OVS_DP_ACTION sizeof_exec_event then
    let '(tracking, event) := handle_tracking k ctx (event ++ [exec_section k ctx]) in
    if (tracking =? 0) && negb (packet_pass PASS ctx) then
      {| retval := 0; outcome := discarded; staged := event |}
    else if u8 (nla_type k (reg (regs ctx) 3)) =? OUTPUT then
      if section_granted k event COLLECTOR_OVS OVS_DP_ACTION_OUTPUT sizeof_exec_output then
        {| retval := 0; outcome := kept;
           staged := event ++ [output_section
             (u32 (default 0 (bpf_probe_read_kernel_u32 k
                                (nla_data k (reg (regs ctx) 3)))))] |}
      else {| retval := 0; outcome := kept; staged := event |}
    else {| retval := 0; outcome := kept; staged := event |}
  else {| retval := 0; outcome := aborted; staged := event |}.
Proof.
  unfold kernel_exec_tp.hook, get_event_section, packet_pass.
  destruct (reg (regs ctx) 2 =? 0); [reflexivity|].
  destruct (reg (regs ctx) 3 =? 0); [reflexivity|].
  destruct (section_granted k event _ _ _); [|reflexivity].
  rewrite !store_snoc.
  change (with_data _ (with_data _ _)) with (exec_section k ctx).
  rewrite negb_involutive.
  destruct (handle_tracking k ctx _) as [tracking staged] eqn:Htrack.
  assert (Hload : load_action (length event) staged = u8 (nla_type k (reg (regs ctx) 3))).
  { rewrite handle_tracking_eq in Htrack.
    repeat case_match; simplify_eq; rewrite <- ?app_assoc; apply load_action_middle. }
  rewrite Hload.
  destruct (_ && _); [reflexivity|].
  destruct (_ =? OUTPUT); [|reflexivity].
  destruct (section_granted k staged _ _ _); [|reflexivity].
  by rewrite store_snoc.
Qed.

(** Unfold a firing of the hook into its paths. *)
Ltac hook_paths :=
  rewrite hook_eq, handle_tracking_eq;
  unfold records_reaching_consumers;
  repeat case_match; simplify_eq/=;
  rewrite <- ?app_assoc; simpl;
  rewrite ?new_sections_nil, ?new_sections_app.

(** Split a membership in an explicit list of sections into its cases. *)
Ltac members :=
  set_unfold;
  repeat match goal with
         | H : _ \/ _ |- _ => destruct H as [H|H]
         | H : False |- _ => destruct H
         end;
  subst.

(** The hook function returns 0 on every path, the discarding one included. *)
Lemma hook_retval k ctx event : retval (hook k ctx event) = 0.
Proof. by hook_paths. Qed.

(** C1.  When the running task is not in the in-flight table and the packet
    filter did not pass, nothing of the firing reaches consumers: the hook
    leaves either before reserving anything or at the discard, never as
    kept.  The only section it may have written by then is the
    [exec_event]; no tracking and no output section exists.  If the firing
    had its inputs and its [exec_event], it leaves at the discard. *)
Theorem not_in_flight_unmatched_is_discarded k ctx event :
  in_flight k = false ->
  packet_pass PASS ctx = false ->
  let f := hook k ctx event in
  records_reaching_consumers event f = [] /\
  outcome f <> kept /\
  ((new_sections event f = []) \/ (new_sections event f = [exec_section k ctx])) /\
  (reg (regs ctx) 2 <> 0 -> reg (regs ctx) 3 <> 0 ->
   section_granted k event COLLECTOR_OVS OVS_DP_ACTION sizeof_exec_event = true ->
   outcome f = discarded).
Proof.
  intros Hfly Hpass f; subst f.
  apply in_flight_false in Hfly.
  hook_paths; rewrite ?Hpass in *; simpl in *;
    repeat split; auto; try discriminate; try (intros; lia).
Qed.

(** C2, as amended.  When the running task is in the in-flight table but the
    probe has no packet reference, [handle_tracking] fails with -1 and
    attaches no tracking section; the firing is nevertheless kept, whatever
    the packet filter said, and its [exec_event] reaches consumers. *)
Theorem in_flight_without_packet_is_kept k ctx event :
  in_flight k = true ->
  retis_get_sk_buff k ctx = 0 ->
  reg (regs ctx) 2 <> 0 ->
  reg (regs ctx) 3 <> 0 ->
  section_granted k event COLLECTOR_OVS OVS_DP_ACTION sizeof_exec_event = true ->
  let f := hook k ctx event in
  fst (handle_tracking k ctx (event ++ [exec_section k ctx])) = -1 /\
  outcome f = kept /\
  (exists rest, records_reaching_consumers event f = exec_section k ctx :: rest) /\
  (forall s, s ∈ records_reaching_consumers event f ->
             data_type s <> OVS_DP_ACTION_TRACK).
Proof.
  intros Hfly Hskb Hkey Hattr Hgrant f; subst f.
  apply in_flight_true in Hfly as [v Hfly].
  split; [by rewrite handle_tracking_eq, Hfly, Hskb|].
  hook_paths; try lia; try discriminate;
    (split; [reflexivity|]); (split; [eauto|]);
    intros s Hin; members; discriminate.
Qed.

(** C5.  A tracking section among the sections of a firing implies that the
    task was in flight, the probe had a packet reference, the scratch buffer
    was found and the assembler granted the section; its [queue_id] is the
    packet hash.  The firing is then kept, and the tracking section comes
    right after the [exec_event] of the same firing, with which it reaches
    consumers. *)
Theorem tracking_record_needs_correlation k ctx event s :
  let f := hook k ctx event in
  s ∈ new_sections event f ->
  data_type s = OVS_DP_ACTION_TRACK ->
  in_flight k = true /\
  retis_get_sk_buff k ctx <> 0 /\
  (exists buff, packet_buffers k !! 0 = Some buff /\
                s = track_section (hash_skb k buff (retis_get_sk_buff k ctx))) /\
  section_granted k (event ++ [exec_section k ctx]) COLLECTOR_OVS OVS_DP_ACTION_TRACK
                  sizeof_exec_track_event = true /\
  outcome f = kept /\
  (exists rest, new_sections event f = exec_section k ctx :: s :: rest /\
                records_reaching_consumers event f = exec_section k ctx :: s :: rest).
Proof.
  intros f; subst f. unfold in_flight.
  hook_paths; intros Hin Htype; members; try discriminate;
    (split; [reflexivity|]); (split; [lia|]); (split; [eauto|]);
    (split; [reflexivity|]); (split; [reflexivity|]); eauto.
Qed.

(** C6.  A kept firing delivers its [exec_event] first.  If an output
    section is delivered with it, the action recorded in that [exec_event]
    is [OVS_ACTION_ATTR_OUTPUT]; if the recorded action is any other, no
    output section is delivered. *)
Theorem output_record_only_for_output_action k ctx event :
  let f := hook k ctx event in
  outcome f = kept ->
  exists e rest,
    data (exec_section k ctx) = Exec e /\
    records_reaching_consumers event f = exec_section k ctx :: rest /\
    (forall s, s ∈ records_reaching_consumers event f ->
               data_type s = OVS_DP_ACTION_OUTPUT -> action e = OUTPUT) /\
    (action e <> OUTPUT ->
     forall s, s ∈ records_reaching_consumers event f ->
               data_type s <> OVS_DP_ACTION_OUTPUT).
Proof.
  intros f; subst f.
  hook_paths; intros Hkept; try discriminate;
    (eexists; eexists; split; [reflexivity|]; split; [reflexivity|]);
    simpl; split; intros; members; try discriminate; try lia.
Qed.

(** C7.  The packet hash is a function of the hashed bytes alone: two calls,
    on whatever kernels, scratch buffers and packet references, return the
    same 32-bit value as soon as the leading bytes they hash agree. *)
Theorem hash_skb_deterministic k1 k2 buff1 buff2 skb1 skb2 :
  take SPAN (skb_bytes k1 skb1) = take SPAN (skb_bytes k2 skb2) ->
  hash_skb k1 buff1 skb1 = hash_skb k2 buff2 skb2 /\
  0 <= hash_skb k1 buff1 skb1 < 2 ^ 32.
Proof.
  intros Hbytes. unfold kernel_exec_tp.hash_skb. rewrite Hbytes.
  split; [reflexivity | apply u32_range].
Qed.

(** C8.  A firing whose required pointer is null leaves at once: the
    function returns 0, the event is as it was handed in, and nothing
    reaches consumers.  This holds for the upcall pointer of the enqueue
    hook and for the flow key and the attribute of the action hook. *)
Theorem missing_input_aborts k ctx event :
  (reg (regs ctx) 3 = 0 ->
     kernel_enqueue.hook k ctx event
       = {| retval := 0; outcome := aborted; staged := event |} /\
     records_reaching_consumers event (kernel_enqueue.hook k ctx event) = []) /\
  ((reg (regs ctx) 2 = 0) \/ (reg (regs ctx) 3 = 0) ->
     hook k ctx event = {| retval := 0; outcome := aborted; staged := event |} /\
     records_reaching_consumers event (hook k ctx event) = []).
Proof.
  split.
  - intros Hnull. rewrite enqueue_hook_eq, Hnull. simpl.
    split; [reflexivity|]. unfold records_reaching_consumers; simpl.
    apply new_sections_nil.
  - intros Hnull.
    assert (Heq : hook k ctx event
                  = {| retval := 0; outcome := aborted; staged := event |}).
    { rewrite hook_eq. destruct Hnull as [-> | ->]; simpl; [reflexivity|].
      by destruct (_ =? 0). }
    rewrite Heq. split; [reflexivity|].
    unfold records_reaching_consumers; simpl. apply new_sections_nil.
Qed.

(** C9.  A firing that has its inputs and its [exec_event], run by a task
    in the in-flight table, is kept and delivers that [exec_event], whether
    or not the packet reference, the scratch buffer, the tracking section or
    the packet filter are there.  The filter flags do not enter the result
    at all: a context that differs in them only yields the same firing. *)
Theorem in_flight_is_kept k ctx event :
  in_flight k = true ->
  reg (regs ctx) 2 <> 0 ->
  reg (regs ctx) 3 <> 0 ->
  section_granted k event COLLECTOR_OVS OVS_DP_ACTION sizeof_exec_event = true ->
  outcome (hook k ctx event) = kept /\
  (exists rest,
     records_reaching_consumers event (hook k ctx event) = exec_section k ctx :: rest) /\
  (forall ctx',
     regs ctx' = regs ctx ->
     retis_get_sk_buff k ctx' = retis_get_sk_buff k ctx ->
     hook k ctx' event = hook k ctx event).
Proof.
  intros Hfly Hkey Hattr Hgrant.
  apply in_flight_true in Hfly as [v Hfly].
  split; [|split].
  - hook_paths; try lia; try discriminate; reflexivity.
  - hook_paths; try lia; try discriminate; eauto.
  - intros ctx' Hregs Hskb.
    rewrite !hook_eq, !handle_tracking_eq. unfold exec_section.
    rewrite Hregs, Hskb, Hfly.
    repeat case_match; simplify_eq/=; reflexivity.
Qed.

(** ** Further properties of the action hook *)

(** X1.  The hook only appends: the event it was handed is left as it was,
    and what follows it is nothing, or the [exec_event] followed by at most
    one tracking section and then at most one output section, with the
    packet hash and the port read at the attribute as their contents. *)
Theorem hook_appends_in_order k ctx event :
  let f := hook k ctx event in
  staged f = event ++ new_sections event f /\
  ((new_sections event f = []) \/
   (exists tracked output,
      new_sections event f = exec_section k ctx :: tracked ++ output /\
      ((tracked = []) \/
       (exists buff, packet_buffers k !! 0 = Some buff /\
          tracked = [track_section (hash_skb k buff (retis_get_sk_buff k ctx))])) /\
      ((output = []) \/ (output = [output_section (output_port k ctx)])))).
Proof.
  intros f; subst f. unfold output_port.
  hook_paths; (split; [by rewrite ?app_nil_r|]); try (left; reflexivity); right.
  all: first
    [ by (exists [], []; eauto)
    | by (exists [], [output_section (output_port k ctx)]; split; [reflexivity|]; eauto)
    | by (eexists [_], []; split; [reflexivity|]; eauto 6)
    | by (eexists [_], [_]; split; [reflexivity|]; eauto 6) ].
Qed.

(** X2.  [handle_tracking] returns 0 exactly when the running task is not in
    the in-flight table, 1 exactly when the packet reference, the scratch
    buffer and the reservation were all there, and -1 otherwise.  With 1 it
    has appended one tracking section; with 0 or -1 the event is unchanged. *)
Theorem handle_tracking_result k ctx event :
  let r := fst (handle_tracking k ctx event) in
  let event' := snd (handle_tracking k ctx event) in
  ((r = 0) \/ (r = 1) \/ (r = -1)) /\
  (r = 0 <-> in_flight k = false) /\
  (r = 1 <->
     in_flight k = true /\ retis_get_sk_buff k ctx <> 0 /\
     is_Some (packet_buffers k !! 0) /\
     section_granted k event COLLECTOR_OVS OVS_DP_ACTION_TRACK
                     sizeof_exec_track_event = true) /\
  (r = 1 -> exists q, event' = event ++ [track_section q]) /\
  (r <> 1 -> event' = event).
Proof.
  cbv zeta. rewrite handle_tracking_eq. unfold in_flight.
  repeat case_match; simplify_eq/=;
    repeat split; intros; try lia; try discriminate; try done; eauto;
    try (destruct_and?; first [lia | discriminate | by (match goal with H : is_Some None |- _ => destruct H end)]).
Qed.

(** X3.  The hook leaves at the discard exactly when it had its inputs and
    its [exec_event], the running task is not in the in-flight table and the
    packet filter did not pass; the [exec_event] is then the one section the
    firing has written. *)
Theorem discarded_iff k ctx event :
  let f := hook k ctx event in
  (outcome f = discarded <->
     reg (regs ctx) 2 <> 0 /\ reg (regs ctx) 3 <> 0 /\
     section_granted k event COLLECTOR_OVS OVS_DP_ACTION sizeof_exec_event = true /\
     in_flight k = false /\ packet_pass PASS ctx = false) /\
  (outcome f = discarded -> new_sections event f = [exec_section k ctx]).
Proof.
  intros f; subst f. unfold in_flight.
  hook_paths; (split; [split|]); intros; destruct_and?;
    try discriminate; try lia; try done;
    repeat split; try lia; try done;
    try (by destruct (packet_pass PASS ctx)).
Qed.

(** X4.  A firing with its inputs and its [exec_event] whose packet passed
    the filter, run by a task that is not in flight, is kept without a
    tracking section: the [exec_event] is delivered, followed by the output
    section exactly when the recorded action is the output action and the
    assembler grants the section. *)
Theorem filter_pass_without_in_flight k ctx event :
  in_flight k = false ->
  packet_pass PASS ctx = true ->
  reg (regs ctx) 2 <> 0 ->
  reg (regs ctx) 3 <> 0 ->
  section_granted k event COLLECTOR_OVS OVS_DP_ACTION sizeof_exec_event = true ->
  let f := hook k ctx event in
  outcome f = kept /\
  records_reaching_consumers event f
  = exec_section k ctx ::
      (if (u8 (nla_type k (reg (regs ctx) 3)) =? OUTPUT)
          && section_granted k (event ++ [exec_section k ctx]) COLLECTOR_OVS
                             OVS_DP_ACTION_OUTPUT sizeof_exec_output
       then [output_section (output_port k ctx)]
       else []).
Proof.
  intros Hfly Hpass Hkey Hattr Hgrant f; subst f.
  apply in_flight_false in Hfly. unfold output_port.
  hook_paths; rewrite ?Hpass in *; simpl in *;
    try lia; try discriminate; try congruence; done.
Qed.

(** X5.  A failed tracking does not cost the output section: when
    [handle_tracking] returns -1 and the action is the output action, the
    firing is kept and delivers the [exec_event] and the output section. *)
Theorem failed_tracking_keeps_output k ctx event :
  fst (handle_tracking k ctx (event ++ [exec_section k ctx])) = -1 ->
  reg (regs ctx) 2 <> 0 ->
  reg (regs ctx) 3 <> 0 ->
  section_granted k event COLLECTOR_OVS OVS_DP_ACTION sizeof_exec_event = true ->
  u8 (nla_type k (reg (regs ctx) 3)) = OUTPUT ->
  section_granted k (event ++ [exec_section k ctx]) COLLECTOR_OVS OVS_DP_ACTION_OUTPUT
                  sizeof_exec_output = true ->
  let f := hook k ctx event in
  outcome f = kept /\
  records_reaching_consumers event f
  = [exec_section k ctx; output_section (output_port k ctx)].
Proof.
  intros Htrack Hkey Hattr Hgrant Hact Hout f; subst f.
  rewrite handle_tracking_eq in Htrack. unfold output_port.
  hook_paths; simpl in *; try lia; try discriminate; try congruence; done.
Qed.

(** X6.  A refused output section costs nothing else: a tracked firing whose
    output section the assembler refuses is kept and delivers its
    [exec_event] and its tracking section. *)
Theorem refused_output_keeps_the_rest k ctx event buff :
  reg (regs ctx) 2 <> 0 ->
  reg (regs ctx) 3 <> 0 ->
  section_granted k event COLLECTOR_OVS OVS_DP_ACTION sizeof_exec_event = true ->
  in_flight k = true ->
  retis_get_sk_buff k ctx <> 0 ->
  packet_buffers k !! 0 = Some buff ->
  section_granted k (event ++ [exec_section k ctx]) COLLECTOR_OVS OVS_DP_ACTION_TRACK
                  sizeof_exec_track_event = true ->
  section_granted k (event ++ [exec_section k ctx;
                               track_section (hash_skb k buff (retis_get_sk_buff k ctx))])
                  COLLECTOR_OVS OVS_DP_ACTION_OUTPUT sizeof_exec_output = false ->
  let f := hook k ctx event in
  outcome f = kept /\
  records_reaching_consumers event f
  = [exec_section k ctx; track_section (hash_skb k buff (retis_get_sk_buff k ctx))].
Proof.
  intros Hkey Hattr Hgrant Hfly Hskb Hbuff Htrack Hout f; subst f.
  apply in_flight_true in Hfly as [v Hfly].
  rewrite hook_eq, handle_tracking_eq, Hfly, Hbuff, Htrack.
  unfold records_reaching_consumers.
  repeat case_match; simplify_eq/=; rewrite <- ?app_assoc in *; simpl in *;
    rewrite ?new_sections_nil, ?new_sections_app; try lia; try congruence; done.
Qed.


(** X8.  The action is recorded and tested as 8 bits: an attribute type
    that agrees with another modulo 256 gives the same firing, so a type
    above 255 whose low byte is the output action gets an output section. *)
Theorem action_type_is_cut_to_8_bits k ctx event f :
  u8 (f (reg (regs ctx) 3)) = u8 (nla_type k (reg (regs ctx) 3)) ->
  hook (with_nla_type f k) ctx event = hook k ctx event.
Proof.
  intros Hcut. rewrite !hook_eq, !handle_tracking_eq.
  unfold exec_section, with_nla_type; simpl. rewrite Hcut. reflexivity.
Qed.

Lemma u8_range x : 0 <= u8 x < 2 ^ 8.
Proof. unfold u8. apply Z.mod_pos_bound. lia. Qed.

(** Both hooks leave the event they were handed in place. *)
Lemma enqueue_hook_frame k ctx event :
  staged (kernel_enqueue.hook k ctx event)
  = event ++ new_sections event (kernel_enqueue.hook k ctx event).
Proof.
  rewrite enqueue_hook_eq.
  repeat case_match; rewrite ?new_sections_nil, ?new_sections_app; simpl;
    by rewrite ?app_nil_r.
Qed.

Lemma hook_frame k ctx event :
  staged (hook k ctx event) = event ++ new_sections event (hook k ctx event).
Proof. hook_paths; by rewrite ?app_nil_r. Qed.

(** X9.  Every section either hook adds is well formed: owned by the OVS
    collector, with the data type and the packed size of the structure it
    holds, and with every field in the range of its C type. *)
Theorem new_sections_well_formed k ctx event s :
  (s ∈ new_sections event (hook k ctx event)) \/
  (s ∈ new_sections event (kernel_enqueue.hook k ctx event)) ->
  well_formed_section s.
Proof.
  pose proof u8_range. pose proof u32_range. pose proof s32_range.
  intros [Hin | Hin]; revert Hin.
  - hook_paths; intros Hin; members;
      (split; [reflexivity|]); simpl; unfold kernel_exec_tp.hash_skb; auto 6.
  - rewrite enqueue_hook_eq.
    repeat case_match; rewrite ?new_sections_nil, ?new_sections_app;
      intros Hin; members; (split; [reflexivity|]); simpl; auto 8.
Qed.

(** X10.  Hooks chain on one event: when the action hook runs on the event
    the enqueue hook has left, the event it leaves is the original one, then
    the section of the enqueue hook, then its own sections, and the action
    it tests is the one of its own [exec_event]. *)
Theorem exec_after_enqueue k1 ctx1 k2 ctx2 event :
  let first := kernel_enqueue.hook k1 ctx1 event in
  let second := hook k2 ctx2 (staged first) in
  staged second
  = event ++ new_sections event first ++ new_sections (staged first) second /\
  ((new_sections (staged first) second = []) \/
   (exists rest, new_sections (staged first) second = exec_section k2 ctx2 :: rest /\
      ((exists s, s ∈ rest /\ data_type s = OVS_DP_ACTION_OUTPUT) ->
       u8 (nla_type k2 (reg (regs ctx2) 3)) = OUTPUT))).
Proof.
  intros first second; subst first second. split.
  - rewrite hook_frame, enqueue_hook_frame at 1. by rewrite <- app_assoc.
  - generalize (staged (kernel_enqueue.hook k1 ctx1 event)). intros staged1.
    hook_paths; try (left; reflexivity); right;
      (eexists; split; [reflexivity|]);
      intros (s & Hin & Htype); members; try discriminate; lia.
Qed.

End exec_properties.

(** ** The properties on concrete firings *)

Lemma kprobe_get_func_ip_total_witness :
  kprobe_get_func_ip {| has_BPF_FUNC_get_func_ip := false; bpf_get_func_ip := fun _ => 0 |}
                     {| PT_REGS_IP := 18446744071578845185 |}
  = 18446744071578845184.
Proof.
  pose proof (kprobe_get_func_ip_total
                {| has_BPF_FUNC_get_func_ip := false; bpf_get_func_ip := fun _ => 0 |}
                {| PT_REGS_IP := 18446744071578845185 |}) as (_ & _ & Hfallback).
  destruct (Hfallback eq_refl) as (_ & _ & _ & Hminus).
  apply Hminus. simpl. lia.
Defined.

(** The design document's scenario: descriptor [cmd = 3], [port = 7] and
    return value 0 give the record [{ret = 0; cmd = 3; port = 7}]. *)
Lemma enqueue_emits_one_record_witness :
  reg (regs (sample_ctx 0 200 0 0)) 3 <> 0 /\
  records_reaching_consumers [] (kernel_enqueue.hook (sample_kernel false 0 grant_all)
                                                     (sample_ctx 0 200 0 0) [])
  = [enqueue_section 0 3 7].
Proof.
  split; [simpl; lia|].
  apply (enqueue_emits_one_record (sample_kernel false 0 grant_all)
                                  (sample_ctx 0 200 0 0) []);
    simpl; first [lia | reflexivity].
Defined.

(** Neither condition of the enqueue property can be dropped: with the
    upcall pointer non-null, a refused reservation leaves no record at all,
    and a return register holding [0xfffffff4] is recorded as -12. *)
Lemma enqueue_record_counterexample :
  (reg (regs (sample_ctx 0 200 0 0)) 3 <> 0 /\
   records_reaching_consumers [] (kernel_enqueue.hook (sample_kernel false 0 grant_none)
                                                      (sample_ctx 0 200 0 0) [])
   = []) /\
  (reg (regs (sample_ctx 0 200 4294967284 0)) 3 <> 0 /\
   records_reaching_consumers [] (kernel_enqueue.hook (sample_kernel false 0 grant_all)
                                                      (sample_ctx 0 200 4294967284 0) [])
   = [enqueue_section (-12) 3 7] /\
   -12 <> ret (regs (sample_ctx 0 200 4294967284 0))).
Proof.
  repeat split; try reflexivity; simpl; lia.
Qed.

Lemma enqueue_ret_is_low_32_bits_witness :
  enqueue_ret {| enqueue_ret := -12; enqueue_cmd := 3; enqueue_port := 7 |}
  = s32 4294967284 /\
  -12 <> 4294967284.
Proof.
  split; [|lia].
  apply (enqueue_ret_is_low_32_bits (sample_kernel false 0 grant_all)
                                    (sample_ctx 0 200 4294967284 0) []
                                    (enqueue_section (-12) 3 7)).
  - vm_compute. apply list_elem_of_here.
  - reflexivity.
Defined.

Lemma not_in_flight_unmatched_is_discarded_witness :
  in_flight (sample_kernel false 77 grant_all) = false /\
  packet_pass 1 (sample_ctx 100 200 0 0) = false /\
  records_reaching_consumers
    [] (kernel_exec_tp.hook 1 1 4 sample_digest (sample_kernel false 77 grant_all)
                            (sample_ctx 100 200 0 0) []) = [] /\
  outcome (kernel_exec_tp.hook 1 1 4 sample_digest (sample_kernel false 77 grant_all)
                               (sample_ctx 100 200 0 0) []) = discarded.
Proof.
  split; [reflexivity|]. split; [reflexivity|].
  pose proof (not_in_flight_unmatched_is_discarded
                1 1 4 sample_digest (sample_kernel false 77 grant_all)
                (sample_ctx 100 200 0 0) [] eq_refl eq_refl) as (Hnone & _ & _ & Hout).
  split; [exact Hnone|]. apply Hout; [simpl; lia | simpl; lia | reflexivity].
Defined.

(** A task in flight, no packet reference, the filter not passed: the
    firing is not discarded; it is kept and two records reach consumers. *)
Lemma in_flight_without_packet_counterexample :
  in_flight (sample_kernel true 0 grant_all) = true /\
  retis_get_sk_buff (sample_kernel true 0 grant_all) (sample_ctx 100 200 0 0) = 0 /\
  packet_pass 1 (sample_ctx 100 200 0 0) = false /\
  outcome (kernel_exec_tp.hook 1 1 4 sample_digest (sample_kernel true 0 grant_all)
                               (sample_ctx 100 200 0 0) []) = kept /\
  records_reaching_consumers
    [] (kernel_exec_tp.hook 1 1 4 sample_digest (sample_kernel true 0 grant_all)
                            (sample_ctx 100 200 0 0) [])
  = [exec_section (sample_kernel true 0 grant_all) (sample_ctx 100 200 0 0);
     output_section 5].
Proof.
  repeat split; vm_compute; reflexivity.
Qed.

Lemma in_flight_without_packet_is_kept_witness :
  in_flight (sample_kernel true 0 grant_all) = true /\
  retis_get_sk_buff (sample_kernel true 0 grant_all) (sample_ctx 100 200 0 0) = 0 /\
  outcome (kernel_exec_tp.hook 1 1 4 sample_digest (sample_kernel true 0 grant_all)
                               (sample_ctx 100 200 0 0) []) = kept.
Proof.
  split; [reflexivity|]. split; [reflexivity|].
  apply (in_flight_without_packet_is_kept
           1 1 4 sample_digest (sample_kernel true 0 grant_all)
           (sample_ctx 100 200 0 0) []); simpl; first [reflexivity | lia].
Defined.

Lemma tracking_record_needs_correlation_witness :
  track_section 13250631
    ∈ new_sections [] (kernel_exec_tp.hook 1 1 4 sample_digest
                                           (sample_kernel true 77 grant_all)
                                           (sample_ctx 100 200 0 0) []) /\
  in_flight (sample_kernel true 77 grant_all) = true /\
  outcome (kernel_exec_tp.hook 1 1 4 sample_digest (sample_kernel true 77 grant_all)
                               (sample_ctx 100 200 0 0) []) = kept.
Proof.
  assert (Hin : track_section 13250631
                  ∈ new_sections [] (kernel_exec_tp.hook 1 1 4 sample_digest
                                       (sample_kernel true 77 grant_all)
                                       (sample_ctx 100 200 0 0) [])).
  { vm_compute. apply list_elem_of_further, list_elem_of_here. }
  split; [exact Hin|].
  pose proof (tracking_record_needs_correlation
                1 1 4 sample_digest (sample_kernel true 77 grant_all)
                (sample_ctx 100 200 0 0) [] (track_section 13250631) Hin eq_refl)
    as (Hfly & _ & _ & _ & Hkept & _).
  split; [exact Hfly | exact Hkept].
Defined.

Lemma output_record_only_for_output_action_witness :
  outcome (kernel_exec_tp.hook 1 1 4 sample_digest (sample_kernel true 77 grant_all)
                               (sample_ctx 100 200 0 0) []) = kept /\
  exists e rest,
    data (exec_section (sample_kernel true 77 grant_all) (sample_ctx 100 200 0 0))
    = Exec e /\
    records_reaching_consumers
      [] (kernel_exec_tp.hook 1 1 4 sample_digest (sample_kernel true 77 grant_all)
                              (sample_ctx 100 200 0 0) [])
    = exec_section (sample_kernel true 77 grant_all) (sample_ctx 100 200 0 0) :: rest /\
    action e = 1.
Proof.
  split; [reflexivity|].
  destruct (output_record_only_for_output_action
              1 1 4 sample_digest (sample_kernel true 77 grant_all)
              (sample_ctx 100 200 0 0) [] eq_refl)
    as (e & rest & He & Hrec & Hout & _).
  exists e, rest. split; [exact He|]. split; [exact Hrec|].
  apply (Hout (output_section 5)); [|reflexivity].
  vm_compute. apply list_elem_of_further, list_elem_of_further, list_elem_of_here.
Defined.

(** Two packets that differ after the hashed span share their hash. *)
Lemma hash_skb_deterministic_witness :
  skb_bytes (with_packet [222; 173; 190; 239; 9; 9] (sample_kernel true 78 grant_all)) 78
  <> skb_bytes (sample_kernel true 77 grant_all) 77 /\
  kernel_exec_tp.hash_skb 4 sample_digest
    (with_packet [222; 173; 190; 239; 9; 9] (sample_kernel true 78 grant_all))
    {| buffer_data := [1; 2; 3] |} 78
  = kernel_exec_tp.hash_skb 4 sample_digest (sample_kernel true 77 grant_all)
                            {| buffer_data := [] |} 77.
Proof.
  split; [discriminate|].
  apply (hash_skb_deterministic
           4 sample_digest
           (with_packet [222; 173; 190; 239; 9; 9] (sample_kernel true 78 grant_all))
           (sample_kernel true 77 grant_all)).
  reflexivity.
Defined.

Lemma missing_input_aborts_witness :
  reg (regs (sample_ctx 0 0 0 1)) 3 = 0 /\
  kernel_enqueue.hook (sample_kernel true 77 grant_all) (sample_ctx 0 0 0 1) []
  = {| retval := 0; outcome := aborted; staged := [] |} /\
  records_reaching_consumers
    [] (kernel_exec_tp.hook 1 1 4 sample_digest (sample_kernel true 77 grant_all)
                            (sample_ctx 0 0 0 1) []) = [].
Proof.
  split; [reflexivity|].
  destruct (missing_input_aborts 1 1 4 sample_digest (sample_kernel true 77 grant_all)
                                 (sample_ctx 0 0 0 1) []) as [Henqueue Hexec].
  split.
  - apply Henqueue. reflexivity.
  - apply Hexec. left. reflexivity.
Defined.

Lemma in_flight_is_kept_witness :
  in_flight (sample_kernel true 0 grant_exec_only) = true /\
  packet_pass 1 (sample_ctx 100 200 0 0) = false /\
  outcome (kernel_exec_tp.hook 1 1 4 sample_digest (sample_kernel true 0 grant_exec_only)
                               (sample_ctx 100 200 0 0) []) = kept.
Proof.
  split; [reflexivity|]. split; [reflexivity|].
  apply (in_flight_is_kept 1 1 4 sample_digest (sample_kernel true 0 grant_exec_only)
                           (sample_ctx 100 200 0 0) []);
    simpl; first [reflexivity | lia].
Defined.

(** The design document's scenario: an output action by a task in flight,
    packet hash [0xABCD1234], port 5 in the attribute payload and
    recirculation id 9 give the three records. *)
Example scenario_tracked_output :
  records_reaching_consumers
    [] (kernel_exec_tp.hook 1 1 64 (fun _ => 2882343476)
                            (sample_kernel true 77 grant_all)
                            (sample_ctx 100 200 0 0) [])
  = [ {| owner := COLLECTOR_OVS; data_type := OVS_DP_ACTION; section_size := 5;
         data := Exec {| action := 1; recirc_id := 9 |} |};
      track_section 2882343476;
      output_section 5 ].
Proof. reflexivity. Qed.

(** The design document's scenario: an output action by a task not in
    flight whose packet did not pass the filter leaves at the discard,
    with the [exec_event] written and nothing delivered. *)
Example scenario_discarded_output :
  kernel_exec_tp.hook 1 1 64 sample_digest (sample_kernel false 77 grant_all)
                      (sample_ctx 100 200 0 0) []
  = {| retval := 0; outcome := discarded;
       staged := [exec_section (sample_kernel false 77 grant_all)
                               (sample_ctx 100 200 0 0)] |}.
Proof. reflexivity. Qed.

(** ** Further properties of the enqueue hook and of the function IP *)

(** X11.  The enqueue hook writes a section exactly when the upcall pointer
    is non-null and the assembler grants the reservation.  It writes at
    most one, after the sections the event already had, which it leaves as
    they were, and whatever it writes is delivered. *)
Theorem enqueue_emits_iff k ctx event :
  let f := kernel_enqueue.hook k ctx event in
  (new_sections event f <> [] <->
     reg (regs ctx) 3 <> 0 /\
     section_granted k event COLLECTOR_OVS OVS_DP_UPCALL_QUEUE
                     sizeof_upcall_enqueue_event = true) /\
  ((new_sections event f = []) \/
   (new_sections event f
    = [enqueue_section (s32 (ret (regs ctx))) (u8 (read_cmd k (reg (regs ctx) 3)))
                       (u32 (read_portid k (reg (regs ctx) 3)))])) /\
  staged f = event ++ new_sections event f /\
  records_reaching_consumers event f = new_sections event f.
Proof.
  intros f; subst f. rewrite enqueue_hook_eq.
  unfold records_reaching_consumers.
  destruct (Z.eqb_spec (reg (regs ctx) 3) 0) as [Hnull | Hptr];
    [|destruct (section_granted k event _ _ _)];
    simpl; rewrite ?new_sections_nil, ?new_sections_app, ?app_nil_r;
    repeat split; auto; try done; intros; destruct_and?; try done.
Qed.

(** X12.  Without [bpf_get_func_ip], distinct trapped instruction pointers
    give distinct function addresses, and the address is never the trapped
    instruction pointer itself. *)
Theorem kprobe_fallback_injective k ctx1 ctx2 :
  has_BPF_FUNC_get_func_ip k = false ->
  0 <= PT_REGS_IP ctx1 < 2 ^ 64 ->
  0 <= PT_REGS_IP ctx2 < 2 ^ 64 ->
  PT_REGS_IP ctx1 <> PT_REGS_IP ctx2 ->
  kprobe_get_func_ip k ctx1 <> kprobe_get_func_ip k ctx2 /\
  kprobe_get_func_ip k ctx1 <> PT_REGS_IP ctx1.
Proof.
  intros Hno H1 H2 Hne. unfold kprobe_get_func_ip, u64. rewrite Hno.
  assert (Hwrap : forall ip, 0 <= ip < 2 ^ 64 ->
            (ip - 1) mod 2 ^ 64 = if ip =? 0 then 2 ^ 64 - 1 else ip - 1).
  { intros ip Hip. destruct (Z.eqb_spec ip 0) as [-> | Hnz]; [reflexivity|].
    apply Z.mod_small. lia. }
  rewrite !Hwrap by assumption.
  destruct (Z.eqb_spec (PT_REGS_IP ctx1) 0), (Z.eqb_spec (PT_REGS_IP ctx2) 0); lia.
Qed.

(** ** The further properties on concrete firings *)

Lemma filter_pass_without_in_flight_witness :
  in_flight (sample_kernel false 77 grant_all) = false /\
  packet_pass 1 (sample_ctx 100 200 0 1) = true /\
  records_reaching_consumers
    [] (kernel_exec_tp.hook 1 1 4 sample_digest (sample_kernel false 77 grant_all)
                            (sample_ctx 100 200 0 1) [])
  = [exec_section (sample_kernel false 77 grant_all) (sample_ctx 100 200 0 1);
     output_section 5].
Proof.
  split; [reflexivity|]. split; [reflexivity|].
  apply (filter_pass_without_in_flight
           1 1 4 sample_digest (sample_kernel false 77 grant_all)
           (sample_ctx 100 200 0 1) []); simpl; first [reflexivity | lia].
Defined.

Lemma failed_tracking_keeps_output_witness :
  fst (kernel_exec_tp.handle_tracking
         4 sample_digest (sample_kernel true 0 grant_all) (sample_ctx 100 200 0 0)
         [exec_section (sample_kernel true 0 grant_all) (sample_ctx 100 200 0 0)]) = -1 /\
  records_reaching_consumers
    [] (kernel_exec_tp.hook 1 1 4 sample_digest (sample_kernel true 0 grant_all)
                            (sample_ctx 100 200 0 0) [])
  = [exec_section (sample_kernel true 0 grant_all) (sample_ctx 100 200 0 0);
     output_section 5].
Proof.
  split; [reflexivity|].
  apply (failed_tracking_keeps_output
           1 1 4 sample_digest (sample_kernel true 0 grant_all)
           (sample_ctx 100 200 0 0) []); simpl; first [reflexivity | lia].
Defined.

Lemma refused_output_keeps_the_rest_witness :
  u8 (nla_type (sample_kernel true 77 (grant_all_but OVS_DP_ACTION_OUTPUT)) 200) = 1 /\
  records_reaching_consumers
    [] (kernel_exec_tp.hook 1 1 4 sample_digest
                            (sample_kernel true 77 (grant_all_but OVS_DP_ACTION_OUTPUT))
                            (sample_ctx 100 200 0 0) [])
  = [exec_section (sample_kernel true 77 (grant_all_but OVS_DP_ACTION_OUTPUT))
                  (sample_ctx 100 200 0 0);
     track_section 13250631].
Proof.
  split; [reflexivity|].
  apply (refused_output_keeps_the_rest
           1 1 4 sample_digest
           (sample_kernel true 77 (grant_all_but OVS_DP_ACTION_OUTPUT))
           (sample_ctx 100 200 0 0) [] {| buffer_data := [] |});
    simpl; first [reflexivity | lia].
Defined.


(** An attribute of type 257 is recorded as action 1 and gets the output
    section of the output action. *)
Lemma action_type_is_cut_to_8_bits_witness :
  kernel_exec_tp.hook 1 1 4 sample_digest
                      (with_nla_type (fun _ => 257) (sample_kernel true 77 grant_all))
                      (sample_ctx 100 200 0 0) []
  = kernel_exec_tp.hook 1 1 4 sample_digest (sample_kernel true 77 grant_all)
                        (sample_ctx 100 200 0 0) [].
Proof.
  apply (action_type_is_cut_to_8_bits
           1 1 4 sample_digest (sample_kernel true 77 grant_all)
           (sample_ctx 100 200 0 0) [] (fun _ => 257)).
  reflexivity.
Defined.

Lemma new_sections_well_formed_witness :
  well_formed_section (enqueue_section (-12) 3 7).
Proof.
  apply (new_sections_well_formed
           1 1 4 sample_digest (sample_kernel true 77 grant_all)
           (sample_ctx 100 200 4294967284 0) []).
  right. vm_compute. apply list_elem_of_here.
Defined.

Lemma kprobe_fallback_injective_witness :
  kprobe_get_func_ip {| has_BPF_FUNC_get_func_ip := false; bpf_get_func_ip := fun _ => 0 |}
                     {| PT_REGS_IP := 0 |}
  <> kprobe_get_func_ip {| has_BPF_FUNC_get_func_ip := false; bpf_get_func_ip := fun _ => 0 |}
                        {| PT_REGS_IP := 5 |}.
Proof.
  apply (kprobe_fallback_injective
           {| has_BPF_FUNC_get_func_ip := false; bpf_get_func_ip := fun _ => 0 |}
           {| PT_REGS_IP := 0 |} {| PT_REGS_IP := 5 |}); simpl;
    first [reflexivity | lia].
Defined.
